(** * CatboostModelArtifact (bentoml/frameworks/catboost.py)

    A shallow embedding of the artifact adapter.  The Python process is a
    [World]: the object store (identity = address), the filesystem, whether
    [import catboost] succeeds, and the list of calls made into the catboost
    library.  Methods are computations in a state-and-exception monad [Py];
    an exception leaves the store as it was at the point of the raise.

    The method bodies are embedded from the source.  A call on an instance
    also passes through the base class [BentoServiceArtifact], which is not
    among the sources: its readiness protocol is a second layer, [Process]
    and the [bound_] operations, kept apart from the bodies.

    Names, extensions and paths are strings, as the docstring of the class
    has them; [os.path.join] is the POSIX one. *)

From Stdlib Require Import Ascii String.
From stdpp Require Import gmap strings list fin_maps.

Local Open Scope string_scope.

(** ** Python values, exceptions and objects *)

Definition loc := positive.

Inductive PyVal :=
| PyNone
| PyStr (s : string)
| PyInt (z : Z)
| PyRef (l : loc).

Inductive PyExc :=
| ImportError (msg : string)
| MissingDependencyException (msg : string)
| InvalidArgument (msg : string)
| AttributeError (msg : string)
| CatBoostError (msg : string)
| OSError (msg : string)
| FailedPrecondition (msg : string)
| ValueError (msg : string).

(** Instance attributes set by [__init__]; [name] is the attribute the base
    class [BentoServiceArtifact] keeps. *)
Record CatboostModelArtifact := mkArtifact {
  name : string;
  _model_extension : string;
  _model : PyVal
}.

(** What lives at an address: an adapter, a [BentoServiceEnv] with its
    declared pip packages, or an instance of some other class, given by the
    qualified names along its method resolution order and by its private
    state. *)
Inductive PyObject :=
| ObjArtifact (a : CatboostModelArtifact)
| ObjEnv (pip_packages : list string)
| ObjInstance (mro : list string) (state : string).

(** Calls into the catboost library, in the order they are made. *)
Inductive LibCall :=
| NewClassifier (clf : loc)
| LoadModel (clf : loc) (path fmt : string)
| SaveModel (clf : loc) (path fmt : string).

(** The catboost library is external: its behaviour is a parameter.
    [cb_load_model state fs path fmt] is the state of a classifier after
    [load_model(path, fmt)], [cb_save_model state fs path fmt] the
    filesystem after [save_model(path, format=fmt)]; both may raise.  A
    [save_model] that raises may already have created or truncated files:
    [cb_failed_save_leaves] is the filesystem it leaves behind. *)
Record CatBoostLibrary := mkLibrary {
  cb_fresh_state : string;
  cb_load_model : string → gmap string string → string → string → PyExc + string;
  cb_save_model : string → gmap string string → string → string →
                  PyExc + gmap string string;
  cb_failed_save_leaves : string → gmap string string → string → string →
                          gmap string string
}.

Record World := mkWorld {
  catboost_importable : bool;
  heap : gmap loc PyObject;
  fs : gmap string string;
  lib_calls : list LibCall
}.

Definition set_heap (h : gmap loc PyObject) (w : World) : World :=
  mkWorld (catboost_importable w) h (fs w) (lib_calls w).

Definition set_fs (f : gmap string string) (w : World) : World :=
  mkWorld (catboost_importable w) (heap w) f (lib_calls w).

Definition log_call (c : LibCall) (w : World) : World :=
  mkWorld (catboost_importable w) (heap w) (fs w) (lib_calls w ++ [c]).

(** ** The monad of Python computations *)

Inductive Outcome (A : Type) :=
| Return (a : A)
| Raise (e : PyExc).
Arguments Return {A} a.
Arguments Raise {A} e.

Definition Py (A : Type) : Type := World → Outcome A * World.

Definition ret {A} (a : A) : Py A := λ w, (Return a, w).

Definition raise {A} (e : PyExc) : Py A := λ w, (Raise e, w).

Definition bind {A B} (c : Py A) (k : A → Py B) : Py B := λ w,
  match c w with
  | (Return a, w') => k a w'
  | (Raise e, w') => (Raise e, w')
  end.

Declare Scope py_scope.
Delimit Scope py_scope with py.
Notation "x <- c ;; k" := (bind c (λ x, k))
  (at level 100, c at next level, right associativity) : py_scope.
Notation "c ;; k" := (bind c (λ _, k))
  (at level 100, right associativity) : py_scope.
Local Open Scope py_scope.

(** [try: c  except ImportError: h] *)
Definition try_except_ImportError {A} (c h : Py A) : Py A := λ w,
  match c w with
  | (Raise (ImportError _), w') => h w'
  | r => r
  end.

(** ** os.path.join (posixpath), two components *)

Definition startswith_sep (s : string) : bool :=
  match s with
  | String c _ => Ascii.eqb c "/"%char
  | EmptyString => false
  end.

Fixpoint endswith_sep (s : string) : bool :=
  match s with
  | EmptyString => false
  | String c EmptyString => Ascii.eqb c "/"%char
  | String _ t => endswith_sep t
  end.

Definition os_path_join (a b : string) : string :=
  if startswith_sep b then b
  else if (String.eqb a "" || endswith_sep a)%bool then a +:+ b
  else a +:+ "/" +:+ b.

(** ** Classes and instance checks *)

Definition CatBoostClassifier : string := "catboost.core.CatBoostClassifier".

Definition CatBoostClassifier_mro : list string :=
  [ CatBoostClassifier; "catboost.core.CatBoost";
    "catboost.core._CatBoostBase"; "builtins.object" ].

Definition CatboostModelArtifact_mro : list string :=
  [ "bentoml.frameworks.catboost.CatboostModelArtifact";
    "bentoml.service.artifacts.BentoServiceArtifact"; "builtins.object" ].

(** [type(v).__mro__] *)
Definition type_mro (w : World) (v : PyVal) : list string :=
  match v with
  | PyNone => [ "builtins.NoneType"; "builtins.object" ]
  | PyStr _ => [ "builtins.str"; "builtins.object" ]
  | PyInt _ => [ "builtins.int"; "builtins.object" ]
  | PyRef l =>
      match heap w !! l with
      | Some (ObjArtifact _) => CatboostModelArtifact_mro
      | Some (ObjEnv _) => [ "bentoml.service.env.BentoServiceEnv"; "builtins.object" ]
      | Some (ObjInstance mro _) => mro
      | None => []
      end
  end.

Definition isinstance (w : World) (v : PyVal) (cls : string) : bool :=
  bool_decide (cls ∈ type_mro w v).

(** ** The adapter *)

Definition MISSING_CATBOOST : string :=
  "catboost package is required to use CatboostModelArtifact".

Definition EXPECT_CLASSIFIER : string :=
  "Expect `model` argument to be a `catboost.core.CatBoostClassifier` instance".

Definition NONE_HAS_NO_SAVE_MODEL : string :=
  "'NoneType' object has no attribute 'save_model'".

(** [import catboost; from catboost import CatBoostClassifier] *)
Definition import_catboost : Py unit := λ w,
  if catboost_importable w then (Return tt, w)
  else (Raise (ImportError "No module named 'catboost'"), w).

(** Reading the attributes of [self]. *)
Definition self_attrs (self : loc) : Py CatboostModelArtifact := λ w,
  match heap w !! self with
  | Some (ObjArtifact a) => (Return a, w)
  | _ => (Raise (AttributeError "not a CatboostModelArtifact"), w)
  end.

(** [self._model = v] *)
Definition set__model (self : loc) (v : PyVal) : Py unit := λ w,
  match heap w !! self with
  | Some (ObjArtifact a) =>
      (Return tt,
       set_heap (<[self := ObjArtifact (mkArtifact (name a) (_model_extension a) v)]>
                   (heap w)) w)
  | _ => (Raise (AttributeError "not a CatboostModelArtifact"), w)
  end.

(** [CatboostModelArtifact(name, model_extension=".json")]: [None] stands
    for an omitted [model_extension].  These are the assignments of lines
    43-45; what the base class's [__init__] checks first is in [construct]
    below. *)
Definition __init__ (name : string) (model_extension : option string)
  : Py loc := λ w,
  let self := fresh (dom (heap w)) in
  let ext := default ".json" model_extension in
  (Return self, set_heap (<[self := ObjArtifact (mkArtifact name ext PyNone)]> (heap w)) w).

Definition _model_file_path (self : loc) (base_path : string) : Py string :=
  a <- self_attrs self ;;
  ret (os_path_join base_path (name a +:+ _model_extension a)).

Definition pack (self : loc) (model metadata : PyVal) : Py PyVal :=
  try_except_ImportError import_catboost
    (raise (MissingDependencyException MISSING_CATBOOST)) ;;
  (λ w, if negb (isinstance w model CatBoostClassifier)
        then raise (InvalidArgument EXPECT_CLASSIFIER) w
        else (set__model self model ;; ret (PyRef self)) w).

Definition get (self : loc) : Py PyVal :=
  a <- self_attrs self ;;
  ret (_model a).

(** Modelled from the spec: [BentoServiceEnv.add_pip_packages]
    (bentoml/service/env.py is not among the sources).  The spec has
    [set_dependencies] declare one external package to the hosting
    environment, a configuration-time effect only: the names are appended to
    the packages the environment object already lists. *)
Definition add_pip_packages (env : loc) (pkgs : list string) : Py PyVal := λ w,
  match heap w !! env with
  | Some (ObjEnv ps) =>
      (Return PyNone, set_heap (<[env := ObjEnv (ps ++ pkgs)]> (heap w)) w)
  | _ => (Raise (AttributeError "object has no attribute 'add_pip_packages'"), w)
  end.

Definition set_dependencies (self env : loc) : Py PyVal :=
  add_pip_packages env [ "catboost" ] ;;
  ret PyNone.

Section WithLibrary.
Context (lib : CatBoostLibrary).

(** [CatBoostClassifier()]: a new object, distinct from every object of
    the store. *)
Definition CatBoostClassifier_new : Py loc := λ w,
  let clf := fresh (dom (heap w)) in
  (Return clf,
   log_call (NewClassifier clf)
     (set_heap (<[clf := ObjInstance CatBoostClassifier_mro (cb_fresh_state lib)]>
                  (heap w)) w)).

(** Looking up a method of the classifier class on a value; other values
    are modelled without that attribute. *)
Definition getattr_method (v : PyVal) (method : string) : Py loc := λ w,
  match v with
  | PyNone =>
      (Raise (AttributeError ("'NoneType' object has no attribute '" +:+ method +:+ "'")), w)
  | PyRef l =>
      if isinstance w v CatBoostClassifier then (Return l, w)
      else (Raise (AttributeError ("object has no attribute '" +:+ method +:+ "'")), w)
  | _ => (Raise (AttributeError ("object has no attribute '" +:+ method +:+ "'")), w)
  end.

(** [clf.load_model(path, fmt)] mutates [clf] in place. *)
Definition load_model (clf : loc) (path fmt : string) : Py PyVal := λ w,
  match heap w !! clf with
  | Some (ObjInstance mro st) =>
      let w1 := log_call (LoadModel clf path fmt) w in
      match cb_load_model lib st (fs w) path fmt with
      | inl e => (Raise e, w1)
      | inr st' =>
          (Return (PyRef clf), set_heap (<[clf := ObjInstance mro st']> (heap w1)) w1)
      end
  | _ => (Raise (AttributeError "object has no attribute 'load_model'"), w)
  end.

(** [clf.save_model(path, format=fmt)] *)
Definition save_model (clf : loc) (path fmt : string) : Py PyVal := λ w,
  match heap w !! clf with
  | Some (ObjInstance mro st) =>
      let w1 := log_call (SaveModel clf path fmt) w in
      match cb_save_model lib st (fs w) path fmt with
      | inl e => (Raise e, set_fs (cb_failed_save_leaves lib st (fs w) path fmt) w1)
      | inr fs' => (Return PyNone, set_fs fs' w1)
      end
  | _ => (Raise (AttributeError "object has no attribute 'save_model'"), w)
  end.

Definition load (self : loc) (path : string) : Py PyVal :=
  try_except_ImportError import_catboost
    (raise (MissingDependencyException MISSING_CATBOOST)) ;;
  clf <- CatBoostClassifier_new ;;
  m <- getattr_method (PyRef clf) "load_model" ;;
  p <- _model_file_path self path ;;
  load_model m p "json" ;;
  pack self (PyRef clf) PyNone.

Definition save (self : loc) (dst : string) : Py PyVal :=
  a <- self_attrs self ;;
  m <- getattr_method (_model a) "save_model" ;;
  p <- _model_file_path self dst ;;
  save_model m p "json".

(** The five operations of the adapter, as one call.  [invoke] runs the
    method body itself, as [CatboostModelArtifact.pack(self, ...)] does;
    [call] below is the call on an instance. *)
Inductive Operation :=
| OpPack (model metadata : PyVal)
| OpLoad (path : string)
| OpSave (dst : string)
| OpGet
| OpSetDependencies (env : loc).

Definition invoke (op : Operation) (self : loc) : Py PyVal :=
  match op with
  | OpPack model metadata => pack self model metadata
  | OpLoad path => load self path
  | OpSave dst => save self dst
  | OpGet => get self
  | OpSetDependencies env => set_dependencies self env
  end.

End WithLibrary.

(** ** A concrete library and concrete stores, for evaluation *)

(** One library behaviour: the file written is the model state itself;
    loading from a path with no file and saving an untrained classifier
    raise [CatBoostError], as catboost does, the latter before anything is
    written. *)
Definition demo_lib : CatBoostLibrary :=
  mkLibrary ""
    (λ st files path fmt,
       match files !! path with
       | Some content => inr content
       | None => inl (CatBoostError "Model file doesn't exist")
       end)
    (λ st files path fmt,
       if String.eqb st "" then inl (CatBoostError "There is no trained model to use save_model()")
       else inr (<[path := st]> files))
    (λ st files path fmt, files).

Definition empty_world (importable : bool) : World :=
  mkWorld importable ∅ ∅ [].

(** One adapter named "model" at address 1, nothing else. *)
Definition init_world (importable : bool) : World :=
  snd (__init__ "model" None (empty_world importable)).

(** A richer store: the adapter at 1 holding [held], a trained classifier
    at 2, an object of another class at 3, an environment at 4, and a
    bundle directory with a saved model. *)
Definition store_holding (held : PyVal) (importable : bool) : World :=
  mkWorld importable
    (<[1%positive := ObjArtifact (mkArtifact "model" ".json" held)]>
       (<[2%positive := ObjInstance CatBoostClassifier_mro "weights"]>
          (<[3%positive := ObjInstance [ "sklearn.svm.SVC"; "builtins.object" ] "svc"]>
             (<[4%positive := ObjEnv []]> ∅))))
    (<["/bundle/model.json" := "weights-on-disk"]> ∅)
    [].

(** The adapter has packed the classifier at 2. *)
Definition demo_world : bool → World := store_holding (PyRef 2%positive).

(** The adapter has packed nothing yet. *)
Definition unpacked_world : bool → World := store_holding PyNone.

(** No objects yet; a bundle directory with a saved model. *)
Definition bundle_world (importable : bool) : World :=
  mkWorld importable ∅ (<["/bundle/model.json" := "weights-on-disk"]> ∅) [].

(** [demo_world] after a [load] from the bundle directory: the adapter
    holds the new classifier at 5, the one at 2 is still in the store. *)
Definition reloaded_world : World :=
  snd (load demo_lib 1%positive "/bundle" (demo_world true)).

(** The library calls made between two stores. *)
Definition new_calls (w w' : World) : list LibCall :=
  drop (length (lib_calls w)) (lib_calls w').

Definition saved_paths (cs : list LibCall) : list string :=
  omap (λ c, match c with SaveModel _ p _ => Some p | _ => None end) cs.

Definition loaded_paths (cs : list LibCall) : list string :=
  omap (λ c, match c with LoadModel _ p _ => Some p | _ => None end) cs.

Definition requested_load_formats (cs : list LibCall) : list string :=
  omap (λ c, match c with LoadModel _ _ f => Some f | _ => None end) cs.

(** The store in which [load] calls the library's [load_model]: a fresh
    classifier has been allocated and both calls are on record. *)
Definition world_at_load_model (lib : CatBoostLibrary) (p : string) (w : World)
  : World :=
  let clf := fresh (dom (heap w)) in
  log_call (LoadModel clf p "json")
    (log_call (NewClassifier clf)
       (set_heap (<[clf := ObjInstance CatBoostClassifier_mro (cb_fresh_state lib)]>
                    (heap w)) w)).

(** The store once [load_model] has returned with state [st]. *)
Definition world_after_load_model (lib : CatBoostLibrary) (p st : string)
    (w : World) : World :=
  let w2 := world_at_load_model lib p w in
  set_heap (<[fresh (dom (heap w)) := ObjInstance CatBoostClassifier_mro st]> (heap w2)) w2.

(** Histories of a process: adapters are constructed and their operations
    are called, on any adapter and in any order. *)
Inductive Step :=
| Construct (n : string) (model_extension : option string)
| Call (self : loc) (op : Operation).

Definition step (lib : CatBoostLibrary) (s : Step) (w : World) : World :=
  match s with
  | Construct n ext => snd (__init__ n ext w)
  | Call self op => snd (invoke lib op self w)
  end.

Definition run_steps (lib : CatBoostLibrary) (ss : list Step) (w : World)
  : World :=
  foldl (λ w s, step lib s w) w ss.

Definition no_adapter_holds_a_model (w : World) : Prop :=
  ∀ l a, heap w !! l = Some (ObjArtifact a) → _model a = PyNone.

(** What an adapter may hold: nothing, or an instance of the classifier
    class. *)
Definition holds_none_or_classifier (w : World) : Prop :=
  ∀ l a, heap w !! l = Some (ObjArtifact a) →
    _model a = PyNone ∨ isinstance w (_model a) CatBoostClassifier = true.

(** The ways in which one construction or call changes the object store:
    not at all; a new adapter; [pack] storing a validated model; the
    environment recording packages; [load] leaving a new classifier behind;
    [load] storing its new classifier. *)
Inductive store_step (w w' : World) : Prop :=
| store_same :
    heap w' = heap w → store_step w w'
| store_construct n ext :
    heap w' = <[fresh (dom (heap w)) := ObjArtifact (mkArtifact n ext PyNone)]> (heap w) →
    store_step w w'
| store_pack self a model :
    heap w !! self = Some (ObjArtifact a) →
    isinstance w model CatBoostClassifier = true →
    heap w' = <[self := ObjArtifact (mkArtifact (name a) (_model_extension a) model)]>
                (heap w) →
    store_step w w'
| store_env env ps ps' :
    heap w !! env = Some (ObjEnv ps) →
    heap w' = <[env := ObjEnv ps']> (heap w) →
    store_step w w'
| store_alloc st :
    heap w' = <[fresh (dom (heap w)) := ObjInstance CatBoostClassifier_mro st]> (heap w) →
    store_step w w'
| store_load self a st :
    heap w !! self = Some (ObjArtifact a) →
    heap w' = <[self := ObjArtifact (mkArtifact (name a) (_model_extension a)
                                       (PyRef (fresh (dom (heap w)))))]>
                (<[fresh (dom (heap w)) := ObjInstance CatBoostClassifier_mro st]>
                   (heap w)) →
    store_step w w'.

(** ** The inherited dispatch *)

(** [str.isidentifier] on ASCII names: a letter or an underscore, then
    letters, digits and underscores. *)
Definition is_identifier_start (c : ascii) : bool :=
  Ascii.eqb c "_"%char
  || (Ascii.leb "a"%char c && Ascii.leb c "z"%char)
  || (Ascii.leb "A"%char c && Ascii.leb c "Z"%char).

Definition is_identifier_continue (c : ascii) : bool :=
  is_identifier_start c || (Ascii.leb "0"%char c && Ascii.leb c "9"%char).

Fixpoint all_identifier_continue (s : string) : bool :=
  match s with
  | EmptyString => true
  | String c t => is_identifier_continue c && all_identifier_continue t
  end.

Definition isidentifier (s : string) : bool :=
  match s with
  | EmptyString => false
  | String c t => is_identifier_start c && all_identifier_continue t
  end.

Definition NAME_NOT_IDENTIFIER : string :=
  "Artifact name must be a valid python identifier".

Definition GET_EMPTY_ARTIFACT : string :=
  "Trying to access empty artifact. An artifact needs to be `pack` with model instance or `load` from saved path before it can be used for inference".

Definition SAVE_EMPTY_ARTIFACT : string :=
  "Trying to save empty artifact. An artifact needs to be `pack` with model instance or `load` from saved path before saving".

(** Modelled from the spec: the attributes of [BentoServiceArtifact], the
    hosting service-artifact base class of section 6
    (bentoml/service/artifacts is not among the sources).  The spec leaves
    its pack/load/save/get contract undescribed; what is modelled is the
    readiness protocol the class applies to calls made on an instance:
    whether the artifact has been packed, and whether it has been loaded.
    The metadata dictionary the base class also keeps is left out: calls
    pass no [metadata] keyword. *)
Record BaseAttrs := mkBase {
  _packed : bool;
  _loaded : bool
}.

(** A process: the store of the method bodies, and the base-class
    attributes of each artifact. *)
Record Process := mkProcess {
  world : World;
  base : gmap loc BaseAttrs
}.

Definition Bound (A : Type) : Type := Process → Outcome A * Process.

(** A method body run within a process. *)
Definition body {A} (c : Py A) : Bound A := λ s,
  match c (world s) with
  | (r, w') => (r, mkProcess w' (base s))
  end.

Definition base_attrs (s : Process) (self : loc) : BaseAttrs :=
  default (mkBase false false) (base s !! self).

(** Modelled from the spec: the property [is_ready] of the missing base
    class, [packed or loaded]. *)
Definition is_ready (s : Process) (self : loc) : bool :=
  _packed (base_attrs s self) || _loaded (base_attrs s self).

(** Modelled from the spec: the constructor as a whole.  Line 43 calls the
    missing base class's [__init__], which rejects a name that is not an
    identifier and starts the artifact neither packed nor loaded; then come
    the assignments of [__init__] above. *)
Definition construct (n : string) (model_extension : option string)
  : Bound loc := λ s,
  if isidentifier n then
    match __init__ n model_extension (world s) with
    | (Return self, w') =>
        (Return self, mkProcess w' (<[self := mkBase false false]> (base s)))
    | (Raise e, w') => (Raise e, mkProcess w' (base s))
    end
  else (Raise (ValueError NAME_NOT_IDENTIFIER), s).

(** Modelled from the spec: [artifact.pack(model, metadata)] through the
    attribute lookup of the missing base class, which marks the artifact
    packed once the body has returned, and not when it has raised. *)
Definition bound_pack (self : loc) (model metadata : PyVal) : Bound PyVal := λ s,
  match pack self model metadata (world s) with
  | (Return v, w') =>
      (Return v,
       mkProcess w' (<[self := mkBase true (_loaded (base_attrs s self))]> (base s)))
  | (Raise e, w') => (Raise e, mkProcess w' (base s))
  end.

(** Modelled from the spec: [artifact.load(path)] through the missing base
    class, which marks the artifact loaded once the body has returned. *)
Definition bound_load (lib : CatBoostLibrary) (self : loc) (path : string)
  : Bound PyVal := λ s,
  match load lib self path (world s) with
  | (Return v, w') =>
      (Return v,
       mkProcess w' (<[self := mkBase (_packed (base_attrs s self)) true]> (base s)))
  | (Raise e, w') => (Raise e, mkProcess w' (base s))
  end.

(** Modelled from the spec: [artifact.save(dst)] through the missing base
    class, which refuses an artifact that is not ready before the body
    runs. *)
Definition bound_save (lib : CatBoostLibrary) (self : loc) (dst : string)
  : Bound PyVal := λ s,
  if is_ready s self then body (save lib self dst) s
  else (Raise (FailedPrecondition SAVE_EMPTY_ARTIFACT), s).

(** Modelled from the spec: [artifact.get()] through the missing base
    class, with the same readiness check. *)
Definition bound_get (self : loc) : Bound PyVal := λ s,
  if is_ready s self then body (get self) s
  else (Raise (FailedPrecondition GET_EMPTY_ARTIFACT), s).

(** An operation invoked on an instance; [set_dependencies] is looked up
    as it is. *)
Definition call (lib : CatBoostLibrary) (op : Operation) (self : loc)
  : Bound PyVal :=
  match op with
  | OpPack model metadata => bound_pack self model metadata
  | OpLoad path => bound_load lib self path
  | OpSave dst => bound_save lib self dst
  | OpGet => bound_get self
  | OpSetDependencies env => body (set_dependencies self env)
  end.

(** What the specification asks of an operation invoked without the
    library: the missing-dependency condition, and an untouched
    filesystem. *)
Definition raises_missing_dependency (lib : CatBoostLibrary) (op : Operation)
    (self : loc) (s : Process) : Prop :=
  ∃ msg s', call lib op self s = (Raise (MissingDependencyException msg), s')
            ∧ fs (world s') = fs (world s).

Definition empty_process (importable : bool) : Process :=
  mkProcess (empty_world importable) ∅.

(** One adapter named "model", constructed at address 1 and never packed
    or loaded. *)
Definition new_process (importable : bool) : Process :=
  snd (construct "model" None (empty_process importable)).





(** ** Equations of the operations *)

Ltac run := unfold bind, ret, raise, try_except_ImportError, import_catboost,
  self_attrs in *.

Lemma pack_unavailable self model metadata w :
  catboost_importable w = false →
  pack self model metadata w =
    (Raise (MissingDependencyException MISSING_CATBOOST), w).
Proof. intros Hno. unfold pack. run. by rewrite Hno. Qed.

Lemma pack_rejects self model metadata w :
  catboost_importable w = true →
  isinstance w model CatBoostClassifier = false →
  pack self model metadata w = (Raise (InvalidArgument EXPECT_CLASSIFIER), w).
Proof. intros Hyes Hty. unfold pack. run. by rewrite Hyes, Hty. Qed.

Lemma pack_accepts self a model metadata w :
  heap w !! self = Some (ObjArtifact a) →
  catboost_importable w = true →
  isinstance w model CatBoostClassifier = true →
  pack self model metadata w =
    (Return (PyRef self),
     set_heap (<[self := ObjArtifact (mkArtifact (name a) (_model_extension a) model)]>
                 (heap w)) w).
Proof.
  intros Hself Hyes Hty. unfold pack, set__model. run.
  by rewrite Hyes, Hty, Hself.
Qed.

Lemma get_eq self a w :
  heap w !! self = Some (ObjArtifact a) →
  get self w = (Return (_model a), w).
Proof. intros Hself. unfold get. run. by rewrite Hself. Qed.

Lemma model_file_path_eq self a base w :
  heap w !! self = Some (ObjArtifact a) →
  _model_file_path self base w =
    (Return (os_path_join base (name a +:+ _model_extension a)), w).
Proof. intros Hself. unfold _model_file_path. run. by rewrite Hself. Qed.

(** An instance of the classifier class is an object of the store whose
    resolution order lists the class. *)
Lemma isinstance_classifier_inv w v :
  isinstance w v CatBoostClassifier = true →
  ∃ l mro st, v = PyRef l ∧ heap w !! l = Some (ObjInstance mro st)
              ∧ CatBoostClassifier ∈ mro.
Proof.
  unfold isinstance, type_mro. intros H.
  destruct v as [| s | z | l]; try (vm_compute in H; discriminate).
  destruct (heap w !! l) as [[a | ps | mro st] |] eqn:Hl;
    try (vm_compute in H; discriminate).
  apply bool_decide_eq_true in H. exists l, mro, st. auto.
Qed.

Lemma fresh_not_in_heap (w : World) : heap w !! fresh (dom (heap w)) = None.
Proof. apply not_elem_of_dom, is_fresh. Qed.

Lemma fresh_ne_allocated (w : World) (l : loc) (o : PyObject) :
  heap w !! l = Some o → l ≠ fresh (dom (heap w)).
Proof. intros Hl ->. rewrite fresh_not_in_heap in Hl. discriminate. Qed.

Lemma classifier_in_mro :
  bool_decide (CatBoostClassifier ∈ CatBoostClassifier_mro) = true.
Proof. reflexivity. Qed.

Lemma load_unavailable lib self path w :
  catboost_importable w = false →
  load lib self path w =
    (Raise (MissingDependencyException MISSING_CATBOOST), w).
Proof. intros Hno. unfold load. run. by rewrite Hno. Qed.

Lemma load_available lib self a path w :
  heap w !! self = Some (ObjArtifact a) →
  catboost_importable w = true →
  let p := os_path_join path (name a +:+ _model_extension a) in
  load lib self path w =
    match cb_load_model lib (cb_fresh_state lib) (fs w) p "json" with
    | inl e => (Raise e, world_at_load_model lib p w)
    | inr st =>
        pack self (PyRef (fresh (dom (heap w)))) PyNone
          (world_after_load_model lib p st w)
    end.
Proof.
  intros Hself Hyes p.
  pose proof (fresh_ne_allocated _ _ _ Hself) as Hne.
  unfold load, CatBoostClassifier_new, getattr_method, _model_file_path,
    load_model, isinstance, type_mro, world_after_load_model, world_at_load_model.
  run. rewrite Hyes. unfold log_call, set_heap.
  cbn [heap fs lib_calls catboost_importable].
  rewrite lookup_insert_eq, classifier_in_mro.
  cbn [heap fs lib_calls catboost_importable].
  rewrite lookup_insert_ne by done. rewrite Hself.
  cbn [heap fs lib_calls catboost_importable].
  rewrite lookup_insert_eq. fold p.
  destruct (cb_load_model lib (cb_fresh_state lib) (fs w) p "json"); reflexivity.
Qed.

Lemma world_after_load_model_self lib p st w self a :
  heap w !! self = Some (ObjArtifact a) →
  heap (world_after_load_model lib p st w) !! self = Some (ObjArtifact a).
Proof.
  intros Hself. pose proof (fresh_ne_allocated _ _ _ Hself) as Hne.
  unfold world_after_load_model, world_at_load_model, log_call, set_heap.
  cbn [heap]. by rewrite !lookup_insert_ne.
Qed.

Lemma world_after_load_model_clf lib p st w :
  heap (world_after_load_model lib p st w) !! fresh (dom (heap w)) =
    Some (ObjInstance CatBoostClassifier_mro st).
Proof.
  unfold world_after_load_model, world_at_load_model, log_call, set_heap.
  cbn [heap]. by rewrite lookup_insert_eq.
Qed.

(** When the library's [load_model] returns, [load] ends with the adapter
    holding the new classifier. *)
Lemma load_returns lib self a path w st :
  heap w !! self = Some (ObjArtifact a) →
  catboost_importable w = true →
  let p := os_path_join path (name a +:+ _model_extension a) in
  let clf := fresh (dom (heap w)) in
  let w3 := world_after_load_model lib p st w in
  cb_load_model lib (cb_fresh_state lib) (fs w) p "json" = inr st →
  load lib self path w =
    (Return (PyRef self),
     set_heap (<[self := ObjArtifact (mkArtifact (name a) (_model_extension a) (PyRef clf))]>
                 (heap w3)) w3).
Proof.
  intros Hself Hyes p clf w3 Hlib.
  rewrite (load_available lib self a path w Hself Hyes). fold p. rewrite Hlib.
  apply pack_accepts.
  - by apply world_after_load_model_self.
  - exact Hyes.
  - unfold isinstance, type_mro, clf, w3. rewrite world_after_load_model_clf.
    apply classifier_in_mro.
Qed.

Lemma save_no_model lib self a dst w :
  heap w !! self = Some (ObjArtifact a) →
  _model a = PyNone →
  save lib self dst w = (Raise (AttributeError NONE_HAS_NO_SAVE_MODEL), w).
Proof.
  intros Hself Hnone. unfold save, getattr_method. run.
  by rewrite Hself, Hnone.
Qed.

Lemma save_held lib self a m mro st dst w :
  heap w !! self = Some (ObjArtifact a) →
  _model a = PyRef m →
  heap w !! m = Some (ObjInstance mro st) →
  CatBoostClassifier ∈ mro →
  let p := os_path_join dst (name a +:+ _model_extension a) in
  let w1 := log_call (SaveModel m p "json") w in
  save lib self dst w =
    match cb_save_model lib st (fs w) p "json" with
    | inl e => (Raise e, set_fs (cb_failed_save_leaves lib st (fs w) p "json") w1)
    | inr files => (Return PyNone, set_fs files w1)
    end.
Proof.
  intros Hself Hheld Hm Hcls p w1.
  unfold save, getattr_method, _model_file_path, save_model, isinstance, type_mro.
  run. rewrite Hself, Hheld, Hm.
  rewrite (bool_decide_eq_true_2 _ Hcls). rewrite Hself, Hm. reflexivity.
Qed.

Lemma new_calls_app (w w' : World) (cs : list LibCall) :
  lib_calls w' = (lib_calls w ++ cs)%list → new_calls w w' = cs.
Proof. intros H. unfold new_calls. rewrite H. apply drop_app_length. Qed.

Lemma new_calls_same w w' :
  lib_calls w' = lib_calls w → new_calls w w' = [].
Proof. intros H. unfold new_calls. rewrite H. apply drop_all. Qed.

(** ** The method bodies without the library *)

(** Where the library is not importable no adapter ever comes to hold a
    model, and no history of constructions and calls writes to the
    filesystem: this is the situation in which [save] is reached without
    the library. *)
Lemma step_without_library lib s w :
  catboost_importable w = false →
  no_adapter_holds_a_model w →
  catboost_importable (step lib s w) = false
  ∧ no_adapter_holds_a_model (step lib s w)
  ∧ fs (step lib s w) = fs w.
Proof.
  intros Hno Hinv. destruct s as [n ext | self [model metadata | path | dst | | env]];
    unfold step, invoke.
  - unfold __init__, set_heap. cbn [snd heap fs catboost_importable].
    split; [exact Hno |]. split; [| reflexivity].
    intros l a. cbn [heap]. rewrite lookup_insert.
    case_decide; [by intros [= <-] | apply Hinv].
  - by rewrite (pack_unavailable _ _ _ _ Hno).
  - by rewrite (load_unavailable _ _ _ _ Hno).
  - destruct (heap w !! self) as [[a | ps | mro st] |] eqn:Hself.
    + by rewrite (save_no_model lib self a dst w Hself (Hinv _ _ Hself)).
    + unfold save. run. by rewrite Hself.
    + unfold save. run. by rewrite Hself.
    + unfold save. run. by rewrite Hself.
  - unfold get. run. by destruct (heap w !! self) as [[| |] |].
  - unfold set_dependencies, add_pip_packages. run.
    destruct (heap w !! env) as [[a | ps | mro st] |] eqn:Henv; try done.
    unfold set_heap. cbn [snd heap fs catboost_importable].
    split; [exact Hno |]. split; [| reflexivity].
    intros l a. cbn [heap]. rewrite lookup_insert.
    case_decide; [discriminate | apply Hinv].
Qed.

Lemma history_without_library lib ss w :
  catboost_importable w = false →
  no_adapter_holds_a_model w →
  catboost_importable (run_steps lib ss w) = false
  ∧ no_adapter_holds_a_model (run_steps lib ss w)
  ∧ fs (run_steps lib ss w) = fs w.
Proof.
  revert w. induction ss as [| s ss IH]; intros w Hno Hinv; [done |].
  destruct (step_without_library lib s w Hno Hinv) as (Hno' & Hinv' & Hfs).
  destruct (IH (step lib s w) Hno' Hinv') as (? & ? & Hfs').
  unfold run_steps in *. simpl. repeat split; try done. congruence.
Qed.

Lemma empty_world_holds_no_model importable :
  no_adapter_holds_a_model (empty_world importable).
Proof. intros l a Hl. unfold empty_world in Hl. simpl in Hl. by rewrite lookup_empty in Hl. Qed.

(** ** pack *)

(** C2: with the library available, packing a value that is not an
    instance of [catboost.core.CatBoostClassifier] raises the
    invalid-argument condition; the store is unchanged, so the adapter holds
    what it held before. *)
Theorem pack_wrong_type_raises_invalid_argument self model metadata w :
  catboost_importable w = true →
  isinstance w model CatBoostClassifier = false →
  pack self model metadata w = (Raise (InvalidArgument EXPECT_CLASSIFIER), w)
  ∧ heap (snd (pack self model metadata w)) !! self = heap w !! self
  ∧ fst (get self (snd (pack self model metadata w))) = fst (get self w).
Proof.
  intros Hyes Hty. rewrite (pack_rejects _ _ _ _ Hyes Hty). by repeat split.
Qed.

Lemma pack_wrong_type_raises_invalid_argument_witness :
  catboost_importable (demo_world true) = true
  ∧ isinstance (demo_world true) (PyRef 3%positive) CatBoostClassifier = false
  ∧ pack 1%positive (PyRef 3%positive) PyNone (demo_world true)
      = (Raise (InvalidArgument EXPECT_CLASSIFIER), demo_world true)
  ∧ heap (snd (pack 1%positive (PyRef 3%positive) PyNone (demo_world true)))
      !! 1%positive = heap (demo_world true) !! 1%positive
  ∧ fst (get 1%positive
           (snd (pack 1%positive (PyRef 3%positive) PyNone (demo_world true))))
      = fst (get 1%positive (demo_world true)).
Proof.
  split; [reflexivity |]. split; [vm_compute; reflexivity |].
  apply (pack_wrong_type_raises_invalid_argument 1%positive (PyRef 3%positive)
           PyNone (demo_world true)); vm_compute; reflexivity.
Defined.

(** C3: packing an instance of the classifier class succeeds and returns
    the adapter itself (the same address); [get] then returns the very
    object that was packed.  The class exists only where the library is
    importable. *)
Theorem pack_then_get_is_identity self a model metadata w :
  heap w !! self = Some (ObjArtifact a) →
  catboost_importable w = true →
  isinstance w model CatBoostClassifier = true →
  ∃ w', pack self model metadata w = (Return (PyRef self), w')
        ∧ get self w' = (Return model, w')
        ∧ heap w' = <[self := ObjArtifact
                        (mkArtifact (name a) (_model_extension a) model)]> (heap w).
Proof.
  intros Hself Hyes Hty. eexists. split; [by apply (pack_accepts _ a) |].
  split; [| reflexivity].
  rewrite (get_eq self (mkArtifact (name a) (_model_extension a) model));
    [reflexivity |].
  unfold set_heap. cbn [heap]. apply lookup_insert_eq.
Qed.

Lemma pack_then_get_is_identity_witness :
  heap (unpacked_world true) !! 1%positive
    = Some (ObjArtifact (mkArtifact "model" ".json" PyNone))
  ∧ catboost_importable (unpacked_world true) = true
  ∧ isinstance (unpacked_world true) (PyRef 2%positive) CatBoostClassifier = true
  ∧ ∃ w', pack 1%positive (PyRef 2%positive) PyNone (unpacked_world true)
            = (Return (PyRef 1%positive), w')
          ∧ get 1%positive w' = (Return (PyRef 2%positive), w')
          ∧ heap w' = <[1%positive := ObjArtifact
                          (mkArtifact "model" ".json" (PyRef 2%positive))]>
                        (heap (unpacked_world true)).
Proof.
  split; [vm_compute; reflexivity |]. split; [reflexivity |].
  split; [vm_compute; reflexivity |].
  apply (pack_then_get_is_identity 1%positive
           (mkArtifact "model" ".json" PyNone) (PyRef 2%positive)
           PyNone (unpacked_world true)); vm_compute; reflexivity.
Defined.

(** C10: in [pack] the availability check comes first.  Without the
    library every argument, of whatever type, gets the missing-dependency
    condition; hence an invalid-argument condition from [pack] shows that
    the library was importable. *)
Theorem pack_checks_library_before_type self model metadata w :
  (catboost_importable w = false →
     pack self model metadata w
       = (Raise (MissingDependencyException MISSING_CATBOOST), w))
  ∧ (∀ msg w', pack self model metadata w = (Raise (InvalidArgument msg), w') →
       catboost_importable w = true).
Proof.
  split; [apply pack_unavailable |].
  intros msg w' Hrun. destruct (catboost_importable w) eqn:Hflag; [done |].
  rewrite (pack_unavailable _ _ _ _ Hflag) in Hrun. discriminate.
Qed.

Lemma pack_checks_library_before_type_witness :
  catboost_importable (demo_world false) = false
  ∧ isinstance (demo_world false) (PyRef 3%positive) CatBoostClassifier = false
  ∧ pack 1%positive (PyRef 3%positive) PyNone (demo_world false)
      = (Raise (MissingDependencyException MISSING_CATBOOST), demo_world false)
  ∧ catboost_importable (demo_world true) = true.
Proof.
  split; [reflexivity |]. split; [vm_compute; reflexivity |]. split.
  - apply (pack_checks_library_before_type 1%positive (PyRef 3%positive) PyNone
             (demo_world false)). reflexivity.
  - apply (proj2 (pack_checks_library_before_type 1%positive (PyRef 3%positive)
                    PyNone (demo_world true))
             EXPECT_CLASSIFIER (demo_world true)).
    vm_compute. reflexivity.
Defined.

(** ** load *)

Lemma world_at_load_model_calls lib p w :
  lib_calls (world_at_load_model lib p w) =
    (lib_calls w ++ [ NewClassifier (fresh (dom (heap w)));
                      LoadModel (fresh (dom (heap w))) p "json" ])%list.
Proof.
  unfold world_at_load_model, log_call. cbn [lib_calls].
  by rewrite <- app_assoc.
Qed.

Lemma load_new_calls lib self a path w :
  heap w !! self = Some (ObjArtifact a) →
  catboost_importable w = true →
  new_calls w (snd (load lib self path w)) =
    [ NewClassifier (fresh (dom (heap w)));
      LoadModel (fresh (dom (heap w)))
        (os_path_join path (name a +:+ _model_extension a)) "json" ].
Proof.
  intros Hself Hyes. apply new_calls_app.
  destruct (cb_load_model lib (cb_fresh_state lib) (fs w)
              (os_path_join path (name a +:+ _model_extension a)) "json")
    as [e | st] eqn:Hlib.
  - rewrite (load_available lib self a path w Hself Hyes). cbv zeta.
    rewrite Hlib. apply world_at_load_model_calls.
  - rewrite (load_returns lib self a path w st Hself Hyes Hlib).
    apply world_at_load_model_calls.
Qed.

(** C4: whatever extension the adapter was constructed with, [load] asks
    the library for the "json" format: it is the format of the one
    [load_model] call made when the library is available, and no call is
    made otherwise. *)
Theorem load_always_requests_json lib self a path w :
  heap w !! self = Some (ObjArtifact a) →
  requested_load_formats (new_calls w (snd (load lib self path w))) =
    if catboost_importable w then [ "json" ] else [].
Proof.
  intros Hself. destruct (catboost_importable w) eqn:Hflag.
  - by rewrite (load_new_calls lib self a path w Hself Hflag).
  - rewrite (load_unavailable lib self path w Hflag).
    by rewrite new_calls_same.
Qed.

Lemma load_always_requests_json_witness :
  heap (demo_world true) !! 1%positive
    = Some (ObjArtifact (mkArtifact "model" ".json" (PyRef 2%positive)))
  ∧ requested_load_formats
      (new_calls (demo_world true)
         (snd (load demo_lib 1%positive "/bundle" (demo_world true))))
    = if catboost_importable (demo_world true) then [ "json" ] else [].
Proof.
  split; [vm_compute; reflexivity |].
  apply (load_always_requests_json demo_lib 1%positive
           (mkArtifact "model" ".json" (PyRef 2%positive)) "/bundle"
           (demo_world true)).
  vm_compute. reflexivity.
Defined.

(** C7, as stated, fails: with the library available but no model file at
    the path, the library's [load_model] raises; [pack] is never reached and
    the adapter still holds nothing. *)
Lemma load_of_missing_file_never_packs :
  catboost_importable (init_world true) = true
  ∧ (∃ msg w', load demo_lib 1%positive "/bundle" (init_world true)
                 = (Raise (CatBoostError msg), w')
               ∧ get 1%positive w' = (Return PyNone, w'))
  ∧ ¬ (∃ clf w', load demo_lib 1%positive "/bundle" (init_world true)
                   = (Return (PyRef 1%positive), w')
                 ∧ get 1%positive w' = (Return (PyRef clf), w')).
Proof.
  split; [reflexivity |]. split.
  - eexists _, _. split; vm_compute; reflexivity.
  - intros (clf & w' & Hrun & _). vm_compute in Hrun. discriminate.
Qed.

(** C7 (amended): with the library available, [load(path)] creates a new
    classifier in its initial state, distinct from every existing object,
    and calls the library's [load_model] on it with
    [os.path.join(path, name + extension)] and "json".  When that call
    returns, [load] delegates to [pack] on the loaded classifier: it
    returns what [pack] returns, the adapter itself, and the adapter then
    holds the new classifier.  When that call raises, the exception
    propagates and the adapter holds what it held before. *)
Theorem load_creates_loads_then_packs lib self a path w :
  heap w !! self = Some (ObjArtifact a) →
  catboost_importable w = true →
  let clf := fresh (dom (heap w)) in
  let p := os_path_join path (name a +:+ _model_extension a) in
  heap w !! clf = None
  ∧ heap (world_at_load_model lib p w) !! clf
      = Some (ObjInstance CatBoostClassifier_mro (cb_fresh_state lib))
  ∧ new_calls w (snd (load lib self path w))
      = [ NewClassifier clf; LoadModel clf p "json" ]
  ∧ (∀ st, cb_load_model lib (cb_fresh_state lib) (fs w) p "json" = inr st →
       load lib self path w
         = pack self (PyRef clf) PyNone (world_after_load_model lib p st w)
       ∧ ∃ w', load lib self path w = (Return (PyRef self), w')
               ∧ get self w' = (Return (PyRef clf), w')
               ∧ heap w' !! clf = Some (ObjInstance CatBoostClassifier_mro st))
  ∧ (∀ e, cb_load_model lib (cb_fresh_state lib) (fs w) p "json" = inl e →
       ∃ w', load lib self path w = (Raise e, w')
             ∧ get self w' = (Return (_model a), w')).
Proof.
  intros Hself Hyes clf p.
  pose proof (fresh_ne_allocated _ _ _ Hself) as Hne. fold clf in Hne.
  split; [apply fresh_not_in_heap |].
  split.
  { unfold world_at_load_model, log_call, set_heap. cbn [heap].
    apply lookup_insert_eq. }
  split; [by apply load_new_calls |].
  split.
  - intros st Hlib. split.
    + rewrite (load_available lib self a path w Hself Hyes). fold p.
      by rewrite Hlib.
    + eexists. split; [by apply (load_returns lib self a path w st) |].
      split.
      * rewrite (get_eq self (mkArtifact (name a) (_model_extension a) (PyRef clf)));
          [reflexivity |].
        unfold set_heap. cbn [heap]. apply lookup_insert_eq.
      * unfold set_heap. cbn [heap]. rewrite lookup_insert_ne by done.
        apply world_after_load_model_clf.
  - intros e Hlib. eexists. split.
    + rewrite (load_available lib self a path w Hself Hyes). fold p.
      by rewrite Hlib.
    + apply get_eq. unfold world_at_load_model, log_call, set_heap.
      cbn [heap]. by rewrite lookup_insert_ne.
Qed.

Lemma load_creates_loads_then_packs_witness :
  heap (demo_world true) !! 1%positive
    = Some (ObjArtifact (mkArtifact "model" ".json" (PyRef 2%positive)))
  ∧ catboost_importable (demo_world true) = true
  ∧ new_calls (demo_world true)
      (snd (load demo_lib 1%positive "/bundle" (demo_world true)))
    = [ NewClassifier 5%positive;
        LoadModel 5%positive "/bundle/model.json" "json" ]
  ∧ ∃ w', load demo_lib 1%positive "/bundle" (demo_world true)
            = (Return (PyRef 1%positive), w')
          ∧ get 1%positive w' = (Return (PyRef 5%positive), w')
          ∧ heap w' !! 5%positive
              = Some (ObjInstance CatBoostClassifier_mro "weights-on-disk").
Proof.
  assert (Hself : heap (demo_world true) !! 1%positive
            = Some (ObjArtifact (mkArtifact "model" ".json" (PyRef 2%positive))))
    by (vm_compute; reflexivity).
  assert (Hyes : catboost_importable (demo_world true) = true) by reflexivity.
  destruct (load_creates_loads_then_packs demo_lib _ _ "/bundle" _ Hself Hyes)
    as (_ & _ & Hcalls & Hret & _).
  split; [exact Hself |]. split; [exact Hyes |]. split; [exact Hcalls |].
  destruct (Hret "weights-on-disk") as [_ Hpacked]; [vm_compute; reflexivity |].
  exact Hpacked.
Defined.

(** ** save and the file path *)

Lemma save_new_calls lib self a m dst w :
  heap w !! self = Some (ObjArtifact a) →
  _model a = m →
  isinstance w m CatBoostClassifier = true →
  ∃ clf, m = PyRef clf
         ∧ new_calls w (snd (save lib self dst w)) =
             [ SaveModel clf (os_path_join dst (name a +:+ _model_extension a)) "json" ].
Proof.
  intros Hself Hheld Hty.
  destruct (isinstance_classifier_inv _ _ Hty) as (clf & mro & st & -> & Hclf & Hcls).
  exists clf. split; [reflexivity |]. apply new_calls_app.
  rewrite (save_held lib self a clf mro st dst w Hself Hheld Hclf Hcls).
  by destruct (cb_save_model lib st (fs w) _ "json").
Qed.

(** C5: two adapters with the same name and extension, given the same base
    directory, hand the library the same path: the path of the one
    [save_model] call of [save] is the path of the one [load_model] call of
    [load], namely what [_model_file_path] computes. *)
Theorem save_and_load_use_the_same_path lib self1 self2 a1 a2 base w1 w2 :
  heap w1 !! self1 = Some (ObjArtifact a1) →
  heap w2 !! self2 = Some (ObjArtifact a2) →
  name a1 = name a2 →
  _model_extension a1 = _model_extension a2 →
  isinstance w1 (_model a1) CatBoostClassifier = true →
  catboost_importable w2 = true →
  saved_paths (new_calls w1 (snd (save lib self1 base w1)))
    = loaded_paths (new_calls w2 (snd (load lib self2 base w2)))
  ∧ saved_paths (new_calls w1 (snd (save lib self1 base w1)))
      = [ os_path_join base (name a1 +:+ _model_extension a1) ]
  ∧ fst (_model_file_path self1 base w1) = fst (_model_file_path self2 base w2).
Proof.
  intros Hself1 Hself2 Hname Hext Hty Hyes.
  destruct (save_new_calls lib self1 a1 (_model a1) base w1 Hself1 eq_refl Hty)
    as (clf & _ & ->).
  rewrite (load_new_calls lib self2 a2 base w2 Hself2 Hyes).
  rewrite (model_file_path_eq _ _ _ _ Hself1), (model_file_path_eq _ _ _ _ Hself2).
  rewrite Hname, Hext. by repeat split.
Qed.

Lemma save_and_load_use_the_same_path_witness :
  heap (demo_world true) !! 1%positive
    = Some (ObjArtifact (mkArtifact "model" ".json" (PyRef 2%positive)))
  ∧ heap (init_world true) !! 1%positive
    = Some (ObjArtifact (mkArtifact "model" ".json" PyNone))
  ∧ isinstance (demo_world true) (PyRef 2%positive) CatBoostClassifier = true
  ∧ catboost_importable (init_world true) = true
  ∧ saved_paths
      (new_calls (demo_world true)
         (snd (save demo_lib 1%positive "/bundle" (demo_world true))))
    = loaded_paths
        (new_calls (init_world true)
           (snd (load demo_lib 1%positive "/bundle" (init_world true))))
  ∧ saved_paths
      (new_calls (demo_world true)
         (snd (save demo_lib 1%positive "/bundle" (demo_world true))))
    = [ "/bundle/model.json" ].
Proof.
  split; [vm_compute; reflexivity |]. split; [vm_compute; reflexivity |].
  split; [vm_compute; reflexivity |]. split; [reflexivity |].
  destruct (save_and_load_use_the_same_path demo_lib 1%positive 1%positive
              (mkArtifact "model" ".json" (PyRef 2%positive))
              (mkArtifact "model" ".json" PyNone)
              "/bundle" (demo_world true) (init_world true))
    as (Hsame & Hpath & _); try (vm_compute; reflexivity).
  split; [exact Hsame | exact Hpath].
Defined.

(** The literal layout [<base>/<file>] is what [os.path.join] gives for a
    base that is neither empty nor ends in a separator and a file name that
    does not start with one. *)
Lemma os_path_join_plain (base file : string) :
  base ≠ "" → endswith_sep base = false → startswith_sep file = false →
  os_path_join base file = base +:+ "/" +:+ file.
Proof.
  intros Hbase Hend Hstart. unfold os_path_join. rewrite Hstart, Hend.
  destruct (String.eqb_spec base ""); [contradiction | reflexivity].
Qed.

(** C6: the file path of an adapter is [os.path.join] of the base path
    with the artifact name followed by the extension; for a plain base
    directory and artifact name this reads [<base>/<name><extension>].  An
    adapter constructed without an extension has the extension ".json". *)
Theorem model_file_path_layout self a base w :
  heap w !! self = Some (ObjArtifact a) →
  _model_file_path self base w
    = (Return (os_path_join base (name a +:+ _model_extension a)), w)
  ∧ (base ≠ "" → endswith_sep base = false →
     startswith_sep (name a +:+ _model_extension a) = false →
     _model_file_path self base w
       = (Return (base +:+ "/" +:+ name a +:+ _model_extension a), w))
  ∧ (∀ n w0, ∃ self' w',
       __init__ n None w0 = (Return self', w')
       ∧ heap w' !! self' = Some (ObjArtifact (mkArtifact n ".json" PyNone))
       ∧ ∀ base', _model_file_path self' base' w'
                    = (Return (os_path_join base' (n +:+ ".json")), w')).
Proof.
  intros Hself. split; [by apply model_file_path_eq |]. split.
  - intros Hbase Hend Hstart. rewrite (model_file_path_eq _ _ _ _ Hself).
    by rewrite os_path_join_plain.
  - intros n w0. eexists _, _. split; [reflexivity |].
    assert (Hnew : heap (set_heap
                     (<[fresh (dom (heap w0)) :=
                          ObjArtifact (mkArtifact n ".json" PyNone)]> (heap w0)) w0)
                   !! fresh (dom (heap w0))
                   = Some (ObjArtifact (mkArtifact n ".json" PyNone))).
    { unfold set_heap. cbn [heap]. apply lookup_insert_eq. }
    split; [exact Hnew |].
    intros base'. by rewrite (model_file_path_eq _ _ _ _ Hnew).
Qed.

Lemma model_file_path_layout_witness :
  heap (init_world true) !! 1%positive
    = Some (ObjArtifact (mkArtifact "model" ".json" PyNone))
  ∧ _model_file_path 1%positive "/bundle" (init_world true)
      = (Return "/bundle/model.json", init_world true).
Proof.
  assert (Hself : heap (init_world true) !! 1%positive
            = Some (ObjArtifact (mkArtifact "model" ".json" PyNone)))
    by (vm_compute; reflexivity).
  split; [exact Hself |].
  apply (proj1 (proj2 (model_file_path_layout 1%positive _ "/bundle" _ Hself)));
    [discriminate | reflexivity | reflexivity].
Defined.

(** ** How the store evolves *)

Lemma save_keeps_heap lib self dst w :
  heap (snd (save lib self dst w)) = heap w
  ∧ catboost_importable (snd (save lib self dst w)) = catboost_importable w.
Proof.
  unfold save, getattr_method, _model_file_path, save_model. run.
  destruct (heap w !! self) as [[a | ps | mro st] |] eqn:Hself; try done.
  destruct (_model a) as [| s | z | m]; try done.
  destruct (isinstance w (PyRef m) CatBoostClassifier); [| done].
  rewrite Hself.
  destruct (heap w !! m) as [[a' | ps | mro st] |]; try done.
  by destruct (cb_save_model lib st (fs w) _ "json").
Qed.

(** What [load] does to the store, in each of its outcomes. *)
Lemma load_heap_cases lib self path w :
  heap (snd (load lib self path w)) = heap w
  ∨ (∃ st, heap (snd (load lib self path w))
             = <[fresh (dom (heap w)) := ObjInstance CatBoostClassifier_mro st]> (heap w))
  ∨ (∃ a st, heap w !! self = Some (ObjArtifact a)
             ∧ heap (snd (load lib self path w))
               = <[self := ObjArtifact (mkArtifact (name a) (_model_extension a)
                                          (PyRef (fresh (dom (heap w)))))]>
                   (<[fresh (dom (heap w)) := ObjInstance CatBoostClassifier_mro st]>
                      (heap w))).
Proof.
  destruct (catboost_importable w) eqn:Hyes;
    [| rewrite (load_unavailable _ _ _ _ Hyes); by left].
  right.
  destruct (heap w !! self) as [[a | ps | mro st] |] eqn:Hself.
  - destruct (cb_load_model lib (cb_fresh_state lib) (fs w)
                (os_path_join path (name a +:+ _model_extension a)) "json")
      as [e | st] eqn:Hlib.
    + left. exists (cb_fresh_state lib).
      rewrite (load_available lib self a path w Hself Hyes). cbv zeta.
      by rewrite Hlib.
    + right. exists a, st. split; [done |].
      rewrite (load_returns lib self a path w st Hself Hyes Hlib).
      unfold world_after_load_model, world_at_load_model, log_call, set_heap.
      cbn [snd heap]. by rewrite insert_insert_eq.
  - pose proof (fresh_ne_allocated _ _ _ Hself) as Hne.
    left. exists (cb_fresh_state lib).
    unfold load, CatBoostClassifier_new, getattr_method, _model_file_path,
      isinstance, type_mro. run. rewrite Hyes. unfold log_call, set_heap.
    cbn [heap fs lib_calls catboost_importable].
    rewrite lookup_insert_eq, classifier_in_mro.
    cbn [heap fs lib_calls catboost_importable].
    rewrite lookup_insert_ne by done. by rewrite Hself.
  - pose proof (fresh_ne_allocated _ _ _ Hself) as Hne.
    left. exists (cb_fresh_state lib).
    unfold load, CatBoostClassifier_new, getattr_method, _model_file_path,
      isinstance, type_mro. run. rewrite Hyes. unfold log_call, set_heap.
    cbn [heap fs lib_calls catboost_importable].
    rewrite lookup_insert_eq, classifier_in_mro.
    cbn [heap fs lib_calls catboost_importable].
    rewrite lookup_insert_ne by done. by rewrite Hself.
  - left. exists (cb_fresh_state lib).
    unfold load, CatBoostClassifier_new, getattr_method, _model_file_path,
      isinstance, type_mro. run. rewrite Hyes. unfold log_call, set_heap.
    cbn [heap fs lib_calls catboost_importable].
    rewrite lookup_insert_eq, classifier_in_mro.
    cbn [heap fs lib_calls catboost_importable].
    rewrite lookup_insert. case_decide as Heq; [done |]. by rewrite Hself.
Qed.

Lemma load_store_step lib self path w :
  store_step w (snd (load lib self path w)).
Proof.
  destruct (load_heap_cases lib self path w)
    as [Heq | [(st & Heq) | (a & st & Hself & Heq)]].
  - by apply store_same.
  - by apply (store_alloc _ _ st).
  - by apply (store_load _ _ self a st).
Qed.

Lemma step_store_step lib s w : store_step w (step lib s w).
Proof.
  destruct s as [n ext | self [model metadata | path | dst | | env]];
    unfold step, invoke.
  - by apply (store_construct _ _ n (default ".json" ext)).
  - unfold pack, set__model. run.
    destruct (catboost_importable w); [| by apply store_same].
    destruct (isinstance w model CatBoostClassifier) eqn:Hty;
      [| by apply store_same].
    destruct (heap w !! self) as [[a | ps | mro st] |] eqn:Hself;
      try (by apply store_same).
    by apply (store_pack _ _ self a model).
  - apply load_store_step.
  - apply store_same, save_keeps_heap.
  - unfold get. run. apply store_same. by destruct (heap w !! self) as [[| |] |].
  - unfold set_dependencies, add_pip_packages. run.
    destruct (heap w !! env) as [[a | ps | mro st] |] eqn:Henv;
      try (by apply store_same).
    by apply (store_env _ _ env ps (ps ++ [ "catboost" ])%list).
Qed.

Lemma store_step_instance w w' l mro st :
  store_step w w' →
  heap w !! l = Some (ObjInstance mro st) →
  heap w' !! l = Some (ObjInstance mro st).
Proof.
  intros Hstep Hl.
  pose proof (fresh_ne_allocated _ _ _ Hl) as Hfresh.
  destruct Hstep as [-> | n ext -> | self a model Hself _ -> | env ps ps' Henv ->
                    | st' -> | self a st' Hself ->]; try done.
  - by rewrite lookup_insert_ne.
  - rewrite lookup_insert_ne; [done | congruence].
  - rewrite lookup_insert_ne; [done | congruence].
  - by rewrite lookup_insert_ne.
  - rewrite lookup_insert_ne by congruence. by rewrite lookup_insert_ne.
Qed.

Lemma store_step_adapter w w' l a :
  store_step w w' →
  heap w !! l = Some (ObjArtifact a) →
  ∃ m, heap w' !! l
         = Some (ObjArtifact (mkArtifact (name a) (_model_extension a) m)).
Proof.
  intros Hstep Hl.
  pose proof (fresh_ne_allocated _ _ _ Hl) as Hfresh.
  destruct Hstep as [-> | n ext -> | self a' model Hself _ -> | env ps ps' Henv ->
                    | st' -> | self a' st' Hself ->].
  - exists (_model a). by destruct a.
  - exists (_model a). rewrite lookup_insert_ne by done. by destruct a.
  - destruct (decide (self = l)) as [-> | Hne].
    + exists model. rewrite lookup_insert_eq. congruence.
    + exists (_model a). rewrite lookup_insert_ne by done. by destruct a.
  - exists (_model a). rewrite lookup_insert_ne by congruence. by destruct a.
  - exists (_model a). rewrite lookup_insert_ne by done. by destruct a.
  - destruct (decide (self = l)) as [-> | Hne].
    + exists (PyRef (fresh (dom (heap w)))). rewrite lookup_insert_eq. congruence.
    + exists (_model a). rewrite !lookup_insert_ne by done. by destruct a.
Qed.

Lemma isinstance_classifier_intro w l mro st :
  heap w !! l = Some (ObjInstance mro st) →
  CatBoostClassifier ∈ mro →
  isinstance w (PyRef l) CatBoostClassifier = true.
Proof.
  intros Hl Hcls. unfold isinstance, type_mro. rewrite Hl.
  by apply bool_decide_eq_true_2.
Qed.

Lemma store_step_isinstance w w' v :
  store_step w w' →
  isinstance w v CatBoostClassifier = true →
  isinstance w' v CatBoostClassifier = true.
Proof.
  intros Hstep Hty.
  destruct (isinstance_classifier_inv _ _ Hty) as (l & mro & st & -> & Hl & Hcls).
  apply (isinstance_classifier_intro w' l mro st); [| done].
  by apply (store_step_instance w).
Qed.

Lemma store_step_invariant w w' :
  store_step w w' →
  holds_none_or_classifier w →
  holds_none_or_classifier w'.
Proof.
  intros Hstep Hinv l a' Hl'.
  pose proof (λ v, store_step_isinstance w w' v Hstep) as Hkeep.
  assert (Hold : ∀ a, heap w !! l = Some (ObjArtifact a) → a' = a →
            _model a' = PyNone ∨ isinstance w' (_model a') CatBoostClassifier = true).
  { intros a Hl ->. destruct (Hinv l a Hl) as [? | Hty]; [by left | right].
    by apply Hkeep. }
  destruct Hstep as [Heq | n ext Heq | self a model Hself Hty Heq
                    | env ps ps' Henv Heq | st' Heq | self a st' Hself Heq];
    rewrite Heq in Hl'.
  - by apply (Hold a').
  - rewrite lookup_insert in Hl'. case_decide; [| by apply (Hold a')].
    injection Hl' as <-. by left.
  - rewrite lookup_insert in Hl'. case_decide; [| by apply (Hold a')].
    injection Hl' as <-. right. cbn [_model]. by apply Hkeep.
  - rewrite lookup_insert in Hl'. case_decide; [done | by apply (Hold a')].
  - rewrite lookup_insert in Hl'. case_decide; [done | by apply (Hold a')].
  - rewrite lookup_insert in Hl'. case_decide.
    + injection Hl' as <-. right. cbn [_model].
      apply (isinstance_classifier_intro w' _ CatBoostClassifier_mro st').
      * rewrite Heq. rewrite lookup_insert_ne
          by (by apply (fresh_ne_allocated _ _ _ Hself)).
        apply lookup_insert_eq.
      * exact (bool_decide_eq_true_1 _ classifier_in_mro).
    + rewrite lookup_insert in Hl'. case_decide; [done | by apply (Hold a')].
Qed.

Lemma run_steps_cons lib s ss w :
  run_steps lib (s :: ss) w = run_steps lib ss (step lib s w).
Proof. reflexivity. Qed.

Lemma history_instance lib ss w l mro st :
  heap w !! l = Some (ObjInstance mro st) →
  heap (run_steps lib ss w) !! l = Some (ObjInstance mro st).
Proof.
  revert w. induction ss as [| s ss IH]; intros w Hl; [done |].
  rewrite run_steps_cons. apply IH.
  apply (store_step_instance w); [apply step_store_step | done].
Qed.

Lemma history_adapter lib ss w l a :
  heap w !! l = Some (ObjArtifact a) →
  ∃ m, heap (run_steps lib ss w) !! l
         = Some (ObjArtifact (mkArtifact (name a) (_model_extension a) m)).
Proof.
  revert w a. induction ss as [| s ss IH]; intros w a Hl.
  - exists (_model a). by destruct a.
  - rewrite run_steps_cons.
    destruct (store_step_adapter w (step lib s w) l a (step_store_step lib s w) Hl)
      as [m Hm].
    destruct (IH _ _ Hm) as [m' Hm']. by exists m'.
Qed.

Lemma history_invariant lib ss w :
  holds_none_or_classifier w →
  holds_none_or_classifier (run_steps lib ss w).
Proof.
  revert w. induction ss as [| s ss IH]; intros w Hinv; [done |].
  rewrite run_steps_cons. apply IH.
  apply (store_step_invariant w); [apply step_store_step | done].
Qed.

Lemma empty_store_holds_none_or_classifier w :
  heap w = ∅ → holds_none_or_classifier w.
Proof. intros Hempty l a Hl. rewrite Hempty, lookup_empty in Hl. discriminate. Qed.

(** ** What histories preserve *)

(** X1: the [_model] attribute of an adapter only ever holds [None] or a
    reference to an instance of the classifier class that is in the store:
    it is assigned in [__init__] and in [pack] alone, and [pack] assigns
    after its instance check.  This holds after any history of
    constructions and method bodies. *)
Theorem adapters_hold_none_or_a_classifier lib ss w self a :
  holds_none_or_classifier w →
  heap (run_steps lib ss w) !! self = Some (ObjArtifact a) →
  _model a = PyNone
  ∨ ∃ clf mro st,
      _model a = PyRef clf
      ∧ heap (run_steps lib ss w) !! clf = Some (ObjInstance mro st)
      ∧ CatBoostClassifier ∈ mro.
Proof.
  intros Hinv Hself.
  destruct (history_invariant lib ss w Hinv self a Hself) as [Hnone | Hty];
    [by left | right].
  destruct (isinstance_classifier_inv _ _ Hty) as (clf & mro & st & Heq & Hclf & Hcls).
  by exists clf, mro, st.
Qed.

Lemma adapters_hold_none_or_a_classifier_witness :
  holds_none_or_classifier (bundle_world true)
  ∧ heap (run_steps demo_lib
            [ Construct "model" None;
              Call 1%positive (OpPack (PyStr "not a model") PyNone);
              Call 1%positive (OpLoad "/bundle") ]
            (bundle_world true)) !! 1%positive
    = Some (ObjArtifact (mkArtifact "model" ".json" (PyRef 2%positive)))
  ∧ ∃ clf mro st,
      PyRef 2%positive = PyRef clf
      ∧ heap (run_steps demo_lib
                [ Construct "model" None;
                  Call 1%positive (OpPack (PyStr "not a model") PyNone);
                  Call 1%positive (OpLoad "/bundle") ]
                (bundle_world true)) !! clf = Some (ObjInstance mro st)
      ∧ CatBoostClassifier ∈ mro.
Proof.
  assert (Hinv : holds_none_or_classifier (bundle_world true))
    by (by apply empty_store_holds_none_or_classifier).
  assert (Hself : heap (run_steps demo_lib
            [ Construct "model" None;
              Call 1%positive (OpPack (PyStr "not a model") PyNone);
              Call 1%positive (OpLoad "/bundle") ]
            (bundle_world true)) !! 1%positive
    = Some (ObjArtifact (mkArtifact "model" ".json" (PyRef 2%positive))))
    by (vm_compute; reflexivity).
  split; [exact Hinv |]. split; [exact Hself |].
  destruct (adapters_hold_none_or_a_classifier demo_lib _ _ _ _ Hinv Hself)
    as [Hnone | Hclf]; [discriminate Hnone | exact Hclf].
Defined.

(** X2: No history changes the name or the extension of an adapter, or removes
    the adapter: both attributes are assigned in [__init__] only.  The file
    path an adapter computes for a base directory is therefore the same
    before and after any sequence of operations. *)
Theorem file_path_survives_every_history lib ss w self a base :
  heap w !! self = Some (ObjArtifact a) →
  (∃ m, heap (run_steps lib ss w) !! self
          = Some (ObjArtifact (mkArtifact (name a) (_model_extension a) m)))
  ∧ fst (_model_file_path self base (run_steps lib ss w))
      = Return (os_path_join base (name a +:+ _model_extension a)).
Proof.
  intros Hself. destruct (history_adapter lib ss w self a Hself) as [m Hm].
  split; [by exists m |]. by rewrite (model_file_path_eq _ _ _ _ Hm).
Qed.

Lemma file_path_survives_every_history_witness :
  heap (unpacked_world true) !! 1%positive
    = Some (ObjArtifact (mkArtifact "model" ".json" PyNone))
  ∧ fst (_model_file_path 1%positive "/out"
           (run_steps demo_lib
              [ Call 1%positive (OpPack (PyRef 2%positive) PyNone);
                Call 1%positive (OpSave "/out");
                Call 1%positive (OpLoad "/out");
                Call 1%positive (OpSetDependencies 4%positive) ]
              (unpacked_world true)))
    = Return "/out/model.json".
Proof.
  assert (Hself : heap (unpacked_world true) !! 1%positive
            = Some (ObjArtifact (mkArtifact "model" ".json" PyNone)))
    by (vm_compute; reflexivity).
  split; [exact Hself |].
  apply (file_path_survives_every_history demo_lib _ _ _ _ "/out" Hself).
Defined.

(** X3: The adapter stores a reference and never writes through it: no history
    modifies or removes an object of another class that is already in the
    store.  [load] writes only into the classifier it has itself created;
    [pack], [save], [get] and [set_dependencies] write into none. *)
Theorem existing_models_are_never_modified lib ss w l mro st :
  heap w !! l = Some (ObjInstance mro st) →
  heap (run_steps lib ss w) !! l = Some (ObjInstance mro st)
  ∧ isinstance (run_steps lib ss w) (PyRef l) CatBoostClassifier
      = isinstance w (PyRef l) CatBoostClassifier.
Proof.
  intros Hl. pose proof (history_instance lib ss w l mro st Hl) as Hl'.
  split; [exact Hl' |]. unfold isinstance, type_mro. by rewrite Hl, Hl'.
Qed.

Lemma existing_models_are_never_modified_witness :
  heap (unpacked_world true) !! 2%positive
    = Some (ObjInstance CatBoostClassifier_mro "weights")
  ∧ heap (run_steps demo_lib
            [ Call 1%positive (OpPack (PyRef 2%positive) PyNone);
              Call 1%positive (OpSave "/out");
              Call 1%positive (OpLoad "/out") ]
            (unpacked_world true)) !! 2%positive
    = Some (ObjInstance CatBoostClassifier_mro "weights").
Proof.
  assert (Hl : heap (unpacked_world true) !! 2%positive
            = Some (ObjInstance CatBoostClassifier_mro "weights"))
    by (vm_compute; reflexivity).
  split; [exact Hl |].
  apply (existing_models_are_never_modified demo_lib _ _ _ _ _ Hl).
Defined.

(** ** How operations compose *)

(** X4: [save] on an adapter holding a classifier makes exactly one library
    call: [save_model] on the held object, with the adapter's file path
    and the format "json", whatever the extension.  The object store is
    left as it was, and [save] writes nothing itself: its outcome and the
    filesystem afterwards are those of the library call, an exception
    propagating untranslated and a normal return giving [None]. *)
Theorem save_delegates_to_the_held_model lib self a clf mro st dst w :
  heap w !! self = Some (ObjArtifact a) →
  _model a = PyRef clf →
  heap w !! clf = Some (ObjInstance mro st) →
  CatBoostClassifier ∈ mro →
  let p := os_path_join dst (name a +:+ _model_extension a) in
  new_calls w (snd (save lib self dst w)) = [ SaveModel clf p "json" ]
  ∧ heap (snd (save lib self dst w)) = heap w
  ∧ match cb_save_model lib st (fs w) p "json" with
    | inl e => fst (save lib self dst w) = Raise e
               ∧ fs (snd (save lib self dst w))
                   = cb_failed_save_leaves lib st (fs w) p "json"
    | inr files => fst (save lib self dst w) = Return PyNone
                   ∧ fs (snd (save lib self dst w)) = files
    end.
Proof.
  intros Hself Hheld Hclf Hcls p.
  rewrite (save_held lib self a clf mro st dst w Hself Hheld Hclf Hcls). fold p.
  destruct (cb_save_model lib st (fs w) p "json") as [e | files];
    (split; [by apply new_calls_app | by split]).
Qed.

Lemma save_delegates_to_the_held_model_witness :
  heap (demo_world true) !! 1%positive
    = Some (ObjArtifact (mkArtifact "model" ".json" (PyRef 2%positive)))
  ∧ heap (demo_world true) !! 2%positive
    = Some (ObjInstance CatBoostClassifier_mro "weights")
  ∧ CatBoostClassifier ∈ CatBoostClassifier_mro
  ∧ new_calls (demo_world true) (snd (save demo_lib 1%positive "/out" (demo_world true)))
    = [ SaveModel 2%positive "/out/model.json" "json" ]
  ∧ fst (save demo_lib 1%positive "/out" (demo_world true)) = Return PyNone
  ∧ fs (snd (save demo_lib 1%positive "/out" (demo_world true)))
    = <["/out/model.json" := "weights"]> (fs (demo_world true)).
Proof.
  assert (Hself : heap (demo_world true) !! 1%positive
            = Some (ObjArtifact (mkArtifact "model" ".json" (PyRef 2%positive))))
    by (vm_compute; reflexivity).
  assert (Hclf : heap (demo_world true) !! 2%positive
            = Some (ObjInstance CatBoostClassifier_mro "weights"))
    by (vm_compute; reflexivity).
  assert (Hcls : CatBoostClassifier ∈ CatBoostClassifier_mro)
    by exact (bool_decide_eq_true_1 _ classifier_in_mro).
  destruct (save_delegates_to_the_held_model demo_lib _ _ _ _ _ "/out" _
              Hself eq_refl Hclf Hcls) as (Hcalls & _ & Hout).
  split; [exact Hself |]. split; [exact Hclf |]. split; [exact Hcls |].
  split; [exact Hcalls |]. exact Hout.
Defined.

(** X5: an adapter holds one model at a time and the last [pack] wins:
    packing [m1] and then [m2], each without metadata, leaves the store
    exactly as packing [m2] alone does, and [get] returns [m2]. *)
Theorem pack_replaces_the_held_model self a m1 m2 w :
  heap w !! self = Some (ObjArtifact a) →
  catboost_importable w = true →
  isinstance w m1 CatBoostClassifier = true →
  isinstance w m2 CatBoostClassifier = true →
  ∃ w1 w2,
    pack self m1 PyNone w = (Return (PyRef self), w1)
    ∧ pack self m2 PyNone w1 = (Return (PyRef self), w2)
    ∧ get self w2 = (Return m2, w2)
    ∧ pack self m2 PyNone w = (Return (PyRef self), w2).
Proof.
  intros Hself Hyes Hty1 Hty2.
  pose proof (pack_accepts self a m1 PyNone w Hself Hyes Hty1) as Hp1.
  set (w1 := set_heap (<[self := ObjArtifact
                           (mkArtifact (name a) (_model_extension a) m1)]> (heap w)) w)
    in Hp1.
  assert (Hself1 : heap w1 !! self
            = Some (ObjArtifact (mkArtifact (name a) (_model_extension a) m1)))
    by apply lookup_insert_eq.
  assert (Hstep : store_step w w1) by (by apply (store_pack w w1 self a m1)).
  pose proof (store_step_isinstance w w1 m2 Hstep Hty2) as Hty2'.
  pose proof (pack_accepts self _ m2 PyNone w1 Hself1 Hyes Hty2') as Hp2.
  eexists _, _. split; [exact Hp1 |]. split; [exact Hp2 |]. split.
  - rewrite (get_eq self (mkArtifact (name a) (_model_extension a) m2));
      [reflexivity |].
    unfold set_heap. cbn [heap name _model_extension]. apply lookup_insert_eq.
  - rewrite (pack_accepts self a m2 PyNone w Hself Hyes Hty2).
    unfold w1, set_heap. cbn [heap fs lib_calls catboost_importable name
                              _model_extension].
    by rewrite insert_insert_eq.
Qed.

Lemma pack_replaces_the_held_model_witness :
  heap reloaded_world !! 1%positive
    = Some (ObjArtifact (mkArtifact "model" ".json" (PyRef 5%positive)))
  ∧ catboost_importable reloaded_world = true
  ∧ isinstance reloaded_world (PyRef 5%positive) CatBoostClassifier = true
  ∧ isinstance reloaded_world (PyRef 2%positive) CatBoostClassifier = true
  ∧ ∃ w1 w2,
      pack 1%positive (PyRef 5%positive) PyNone reloaded_world
        = (Return (PyRef 1%positive), w1)
      ∧ pack 1%positive (PyRef 2%positive) PyNone w1
        = (Return (PyRef 1%positive), w2)
      ∧ get 1%positive w2 = (Return (PyRef 2%positive), w2)
      ∧ pack 1%positive (PyRef 2%positive) PyNone reloaded_world
        = (Return (PyRef 1%positive), w2).
Proof.
  split; [vm_compute; reflexivity |]. split; [reflexivity |].
  split; [vm_compute; reflexivity |]. split; [vm_compute; reflexivity |].
  apply (pack_replaces_the_held_model 1%positive
           (mkArtifact "model" ".json" (PyRef 5%positive))
           (PyRef 5%positive) (PyRef 2%positive) reloaded_world);
    vm_compute; reflexivity.
Defined.

(** X6: Saving and then loading from the same directory composes the
    library's own round trip: both operations use the same path and the
    format "json", so if the library can read back what it wrote, the
    adapter ends up holding a new classifier in the state the library read.
    The classifier that was saved is a different object and is left as it
    was. *)
Theorem save_then_load_round_trip lib self a clf mro st dir files st' w :
  heap w !! self = Some (ObjArtifact a) →
  _model a = PyRef clf →
  heap w !! clf = Some (ObjInstance mro st) →
  CatBoostClassifier ∈ mro →
  catboost_importable w = true →
  cb_save_model lib st (fs w)
    (os_path_join dir (name a +:+ _model_extension a)) "json" = inr files →
  cb_load_model lib (cb_fresh_state lib) files
    (os_path_join dir (name a +:+ _model_extension a)) "json" = inr st' →
  ∃ w1 w2 clf',
    save lib self dir w = (Return PyNone, w1)
    ∧ load lib self dir w1 = (Return (PyRef self), w2)
    ∧ get self w2 = (Return (PyRef clf'), w2)
    ∧ clf' ≠ clf
    ∧ heap w2 !! clf' = Some (ObjInstance CatBoostClassifier_mro st')
    ∧ heap w2 !! clf = Some (ObjInstance mro st).
Proof.
  intros Hself Hheld Hclf Hcls Hyes Hsave Hload.
  pose proof (save_held lib self a clf mro st dir w Hself Hheld Hclf Hcls) as Hs.
  cbv zeta in Hs. rewrite Hsave in Hs.
  set (p := os_path_join dir (name a +:+ _model_extension a)) in *.
  set (w1 := set_fs files (log_call (SaveModel clf p "json") w)) in *.
  assert (Hself1 : heap w1 !! self = Some (ObjArtifact a)) by exact Hself.
  assert (Hclf1 : heap w1 !! clf = Some (ObjInstance mro st)) by exact Hclf.
  assert (Hyes1 : catboost_importable w1 = true) by exact Hyes.
  assert (Hload1 : cb_load_model lib (cb_fresh_state lib) (fs w1) p "json" = inr st')
    by exact Hload.
  pose proof (load_returns lib self a dir w1 st' Hself1 Hyes1 Hload1) as Hl.
  cbv zeta in Hl. fold p in Hl.
  pose proof (fresh_ne_allocated _ _ _ Hself1) as Hne_self.
  pose proof (fresh_ne_allocated _ _ _ Hclf1) as Hne_clf.
  eexists _, _, (fresh (dom (heap w1))).
  split; [exact Hs |]. split; [exact Hl |].
  unfold set_heap. cbn [heap]. split; [| split; [congruence | split]].
  - rewrite (get_eq self (mkArtifact (name a) (_model_extension a)
                            (PyRef (fresh (dom (heap w1))))));
      [reflexivity |].
    cbn [heap]. apply lookup_insert_eq.
  - rewrite lookup_insert_ne by done. apply world_after_load_model_clf.
  - rewrite lookup_insert_ne by congruence.
    unfold world_after_load_model, world_at_load_model, log_call, set_heap.
    cbn [heap]. by rewrite !lookup_insert_ne.
Qed.

Lemma save_then_load_round_trip_witness :
  heap (demo_world true) !! 1%positive
    = Some (ObjArtifact (mkArtifact "model" ".json" (PyRef 2%positive)))
  ∧ heap (demo_world true) !! 2%positive
    = Some (ObjInstance CatBoostClassifier_mro "weights")
  ∧ catboost_importable (demo_world true) = true
  ∧ ∃ w1 w2 clf',
      save demo_lib 1%positive "/out" (demo_world true) = (Return PyNone, w1)
      ∧ load demo_lib 1%positive "/out" w1 = (Return (PyRef 1%positive), w2)
      ∧ get 1%positive w2 = (Return (PyRef clf'), w2)
      ∧ clf' ≠ 2%positive
      ∧ heap w2 !! clf' = Some (ObjInstance CatBoostClassifier_mro "weights")
      ∧ heap w2 !! 2%positive = Some (ObjInstance CatBoostClassifier_mro "weights").
Proof.
  assert (Hself : heap (demo_world true) !! 1%positive
            = Some (ObjArtifact (mkArtifact "model" ".json" (PyRef 2%positive))))
    by (vm_compute; reflexivity).
  assert (Hclf : heap (demo_world true) !! 2%positive
            = Some (ObjInstance CatBoostClassifier_mro "weights"))
    by (vm_compute; reflexivity).
  split; [exact Hself |]. split; [exact Hclf |]. split; [reflexivity |].
  apply (save_then_load_round_trip demo_lib 1%positive _ 2%positive _ _ "/out"
           (<["/out/model.json" := "weights"]> (fs (demo_world true))) "weights"
           (demo_world true) Hself eq_refl Hclf
           (bool_decide_eq_true_1 _ classifier_in_mro));
    vm_compute; reflexivity.
Defined.

(** ** Several adapters *)

Lemma invoke_keeps_other_adapters lib op self other b w :
  self ≠ other →
  heap w !! other = Some (ObjArtifact b) →
  heap (snd (invoke lib op self w)) !! other = Some (ObjArtifact b).
Proof.
  intros Hne Hother.
  pose proof (fresh_ne_allocated _ _ _ Hother) as Hfresh.
  destruct op as [model metadata | path | dst | | env]; unfold invoke.
  - unfold pack, set__model. run.
    destruct (catboost_importable w); [| done].
    destruct (isinstance w model CatBoostClassifier); [| done].
    destruct (heap w !! self) as [[a | ps | mro st] |]; try done.
    unfold set_heap. cbn [snd heap negb]. by rewrite lookup_insert_ne.
  - destruct (load_heap_cases lib self path w)
      as [-> | [(st & ->) | (a & st & _ & ->)]]; [done | |].
    + by rewrite lookup_insert_ne.
    + by rewrite !lookup_insert_ne.
  - by rewrite (proj1 (save_keeps_heap lib self dst w)).
  - unfold get. run. by destruct (heap w !! self) as [[| |] |].
  - unfold set_dependencies, add_pip_packages. run.
    destruct (heap w !! env) as [[a | ps | mro st] |] eqn:Henv; try done.
    unfold set_heap. cbn [snd heap]. rewrite lookup_insert_ne; [done | congruence].
Qed.

(** X7: The held model is an attribute of the instance, not of the class: an
    operation invoked on one adapter, whatever it is and however it ends,
    leaves every other adapter with the name, the extension and the model
    it had. *)
Theorem adapters_do_not_share_state lib op self other b w :
  self ≠ other →
  heap w !! other = Some (ObjArtifact b) →
  heap (snd (invoke lib op self w)) !! other = Some (ObjArtifact b)
  ∧ fst (get other (snd (invoke lib op self w))) = Return (_model b).
Proof.
  intros Hne Hother.
  pose proof (invoke_keeps_other_adapters lib op self other b w Hne Hother)
    as Hkept.
  split; [exact Hkept |]. by rewrite (get_eq _ _ _ Hkept).
Qed.

Lemma adapters_do_not_share_state_witness :
  1%positive ≠ 6%positive
  ∧ heap (snd (__init__ "second" (Some ".cbm") reloaded_world)) !! 6%positive
    = Some (ObjArtifact (mkArtifact "second" ".cbm" PyNone))
  ∧ heap (snd (invoke demo_lib (OpPack (PyRef 2%positive) PyNone) 1%positive
                 (snd (__init__ "second" (Some ".cbm") reloaded_world))))
      !! 6%positive
    = Some (ObjArtifact (mkArtifact "second" ".cbm" PyNone))
  ∧ fst (get 6%positive
           (snd (invoke demo_lib (OpPack (PyRef 2%positive) PyNone) 1%positive
                   (snd (__init__ "second" (Some ".cbm") reloaded_world)))))
    = Return PyNone.
Proof.
  assert (Hother : heap (snd (__init__ "second" (Some ".cbm") reloaded_world))
                     !! 6%positive
                   = Some (ObjArtifact (mkArtifact "second" ".cbm" PyNone)))
    by (vm_compute; reflexivity).
  split; [discriminate |]. split; [exact Hother |].
  apply (adapters_do_not_share_state demo_lib (OpPack (PyRef 2%positive) PyNone)
           1%positive 6%positive (mkArtifact "second" ".cbm" PyNone)
           (snd (__init__ "second" (Some ".cbm") reloaded_world)));
    [discriminate | exact Hother].
Defined.

(** ** File names *)

Lemma string_length_app (s t : string) :
  String.length (s +:+ t) = String.length s + String.length t.
Proof. induction s as [| c s IH]; simpl; [done | by rewrite IH]. Qed.

Lemma string_app_inv_tail (s t u : string) : s +:+ u = t +:+ u → s = t.
Proof.
  intros Heq.
  assert (Hlen : String.length s = String.length t).
  { apply (f_equal String.length) in Heq.
    rewrite (string_length_app s u), (string_length_app t u) in Heq. lia. }
  revert t Heq Hlen.
  induction s as [| c s IH]; intros [| d t] Heq Hlen; try done.
  change (String c (s +:+ u) = String d (t +:+ u)) in Heq.
  injection Heq as -> Heq. f_equal. apply IH; [done |].
  simpl in Hlen. lia.
Qed.

Lemma os_path_join_inj (base f1 f2 : string) :
  startswith_sep f1 = startswith_sep f2 →
  os_path_join base f1 = os_path_join base f2 → f1 = f2.
Proof.
  unfold os_path_join. intros <-.
  destruct (startswith_sep f1); [done |].
  destruct (String.eqb base "" || endswith_sep base)%bool; intros Heq.
  - by apply (inj (String.app base)) in Heq.
  - apply (inj (String.app base)) in Heq. by apply (inj (String.app "/")) in Heq.
Qed.

(** X9: Two adapters with the same extension and different names never compute
    the same file for a directory, provided the two file names are both
    relative or both absolute: artifacts of one bundle do not overwrite
    each other. *)
Theorem distinct_names_give_distinct_files self1 self2 a1 a2 base w :
  heap w !! self1 = Some (ObjArtifact a1) →
  heap w !! self2 = Some (ObjArtifact a2) →
  _model_extension a1 = _model_extension a2 →
  startswith_sep (name a1 +:+ _model_extension a1)
    = startswith_sep (name a2 +:+ _model_extension a2) →
  name a1 ≠ name a2 →
  fst (_model_file_path self1 base w) ≠ fst (_model_file_path self2 base w).
Proof.
  intros Hself1 Hself2 Hext Hkind Hname.
  rewrite (model_file_path_eq _ _ _ _ Hself1), (model_file_path_eq _ _ _ _ Hself2).
  cbn [fst]. intros [= Heq]. apply Hname.
  apply os_path_join_inj in Heq; [| exact Hkind].
  rewrite Hext in Heq. by apply string_app_inv_tail in Heq.
Qed.

Lemma distinct_names_give_distinct_files_witness :
  heap (snd (__init__ "second" None reloaded_world)) !! 1%positive
    = Some (ObjArtifact (mkArtifact "model" ".json" (PyRef 5%positive)))
  ∧ heap (snd (__init__ "second" None reloaded_world)) !! 6%positive
    = Some (ObjArtifact (mkArtifact "second" ".json" PyNone))
  ∧ fst (_model_file_path 1%positive "/bundle"
           (snd (__init__ "second" None reloaded_world)))
    ≠ fst (_model_file_path 6%positive "/bundle"
             (snd (__init__ "second" None reloaded_world))).
Proof.
  assert (H1 : heap (snd (__init__ "second" None reloaded_world)) !! 1%positive
               = Some (ObjArtifact (mkArtifact "model" ".json" (PyRef 5%positive))))
    by (vm_compute; reflexivity).
  assert (H6 : heap (snd (__init__ "second" None reloaded_world)) !! 6%positive
               = Some (ObjArtifact (mkArtifact "second" ".json" PyNone)))
    by (vm_compute; reflexivity).
  split; [exact H1 |]. split; [exact H6 |].
  apply (distinct_names_give_distinct_files 1%positive 6%positive _ _ "/bundle" _
           H1 H6); [reflexivity | reflexivity | discriminate].
Defined.

(** ** Operations that raise *)

Lemma invoke_raise_keeps_adapter lib op self a w e w' :
  heap w !! self = Some (ObjArtifact a) →
  invoke lib op self w = (Raise e, w') →
  heap w' !! self = Some (ObjArtifact a).
Proof.
  intros Hself Hrun.
  destruct op as [model metadata | path | dst | | env]; unfold invoke in Hrun.
  - unfold pack, set__model in Hrun. run.
    destruct (catboost_importable w); [| by injection Hrun as _ <-].
    destruct (isinstance w model CatBoostClassifier);
      [| by injection Hrun as _ <-].
    by rewrite Hself in Hrun.
  - destruct (catboost_importable w) eqn:Hyes.
    + destruct (cb_load_model lib (cb_fresh_state lib) (fs w)
                  (os_path_join path (name a +:+ _model_extension a)) "json")
        as [e' | st] eqn:Hlib.
      * rewrite (load_available lib self a path w Hself Hyes) in Hrun.
        cbv zeta in Hrun. rewrite Hlib in Hrun. injection Hrun as _ <-.
        unfold world_at_load_model, log_call, set_heap. cbn [heap].
        rewrite lookup_insert_ne; [done |].
        apply not_eq_sym. by apply (fresh_ne_allocated _ _ _ Hself).
      * by rewrite (load_returns lib self a path w st Hself Hyes Hlib) in Hrun.
    + rewrite (load_unavailable lib self path w Hyes) in Hrun.
      by injection Hrun as _ <-.
  - pose proof (proj1 (save_keeps_heap lib self dst w)) as Hheap.
    rewrite Hrun in Hheap. cbn [snd] in Hheap. by rewrite Hheap.
  - by rewrite (get_eq _ _ _ Hself) in Hrun.
  - unfold set_dependencies, add_pip_packages in Hrun. run.
    destruct (heap w !! env) as [[a' | ps | mro st] |];
      try (by injection Hrun as _ <-). done.
Qed.

(** X10: whenever the body of an operation invoked on an adapter raises,
    whatever the exception, that adapter keeps its name, its extension and
    the model it held: [pack] and [load] assign the model as their last
    step, and [save], [get] and [set_dependencies] assign nothing. *)
Theorem a_raising_operation_leaves_its_adapter_alone lib op self a w e w' :
  heap w !! self = Some (ObjArtifact a) →
  invoke lib op self w = (Raise e, w') →
  heap w' !! self = Some (ObjArtifact a).
Proof. apply invoke_raise_keeps_adapter. Qed.

Lemma a_raising_operation_leaves_its_adapter_alone_witness :
  heap reloaded_world !! 1%positive
    = Some (ObjArtifact (mkArtifact "model" ".json" (PyRef 5%positive)))
  ∧ invoke demo_lib (OpLoad "/nowhere") 1%positive reloaded_world
    = (Raise (CatBoostError "Model file doesn't exist"),
       snd (invoke demo_lib (OpLoad "/nowhere") 1%positive reloaded_world))
  ∧ heap (snd (invoke demo_lib (OpLoad "/nowhere") 1%positive reloaded_world))
      !! 1%positive
    = Some (ObjArtifact (mkArtifact "model" ".json" (PyRef 5%positive))).
Proof.
  assert (Hself : heap reloaded_world !! 1%positive
            = Some (ObjArtifact (mkArtifact "model" ".json" (PyRef 5%positive))))
    by (vm_compute; reflexivity).
  assert (Hrun : invoke demo_lib (OpLoad "/nowhere") 1%positive reloaded_world
            = (Raise (CatBoostError "Model file doesn't exist"),
               snd (invoke demo_lib (OpLoad "/nowhere") 1%positive reloaded_world)))
    by (vm_compute; reflexivity).
  split; [exact Hself |]. split; [exact Hrun |].
  apply (a_raising_operation_leaves_its_adapter_alone demo_lib _ _ _ _ _ _
           Hself Hrun).
Defined.

(** ** Calls on an instance *)

Lemma process_eta (s : Process) : mkProcess (world s) (base s) = s.
Proof. by destruct s. Qed.

Lemma body_eq {A} (c : Py A) (s : Process) :
  body c s = (fst (c (world s)), mkProcess (snd (c (world s))) (base s)).
Proof. unfold body. by destruct (c (world s)). Qed.

Lemma bound_pack_unavailable self model metadata s :
  catboost_importable (world s) = false →
  bound_pack self model metadata s
    = (Raise (MissingDependencyException MISSING_CATBOOST), s).
Proof.
  intros Hno. unfold bound_pack. rewrite (pack_unavailable _ _ _ _ Hno).
  by rewrite process_eta.
Qed.

Lemma bound_load_unavailable lib self path s :
  catboost_importable (world s) = false →
  bound_load lib self path s
    = (Raise (MissingDependencyException MISSING_CATBOOST), s).
Proof.
  intros Hno. unfold bound_load. rewrite (load_unavailable _ _ _ _ Hno).
  by rewrite process_eta.
Qed.



Lemma bound_save_not_ready lib self dst s :
  is_ready s self = false →
  bound_save lib self dst s = (Raise (FailedPrecondition SAVE_EMPTY_ARTIFACT), s).
Proof. intros Hnot. unfold bound_save. by rewrite Hnot. Qed.




(** ** The unavailable library, on an instance *)

(** C1, as stated, fails: without the library, [get] on a newly
    constructed adapter raises the failed-precondition condition of the
    base class, not the missing-dependency condition. *)
Lemma get_without_library_is_not_missing_dependency :
  catboost_importable (world (new_process false)) = false
  ∧ (∃ msg, call demo_lib OpGet 1%positive (new_process false)
              = (Raise (FailedPrecondition msg), new_process false))
  ∧ ¬ raises_missing_dependency demo_lib OpGet 1%positive (new_process false).
Proof.
  split; [reflexivity |]. split.
  - eexists. vm_compute. reflexivity.
  - intros (msg & s' & Hrun & _). vm_compute in Hrun. discriminate.
Qed.

(** C1 (amended): without the library, [pack] and [load] raise the
    missing-dependency condition and leave the process, the filesystem
    included, as it was.  [get] and [set_dependencies], and [save] on an
    adapter that has never been packed or loaded, make no availability
    check: they do not raise the missing-dependency condition, and they do
    not write to the filesystem either. *)
Theorem without_library_pack_and_load_raise lib self s :
  catboost_importable (world s) = false →
  (∀ model metadata,
     call lib (OpPack model metadata) self s
       = (Raise (MissingDependencyException MISSING_CATBOOST), s))
  ∧ (∀ path,
       call lib (OpLoad path) self s
         = (Raise (MissingDependencyException MISSING_CATBOOST), s))
  ∧ ((∀ msg, fst (call lib OpGet self s) ≠ Raise (MissingDependencyException msg))
     ∧ fs (world (snd (call lib OpGet self s))) = fs (world s))
  ∧ (∀ env,
       (∀ msg, fst (call lib (OpSetDependencies env) self s)
                 ≠ Raise (MissingDependencyException msg))
       ∧ fs (world (snd (call lib (OpSetDependencies env) self s))) = fs (world s))
  ∧ (is_ready s self = false →
     ∀ dst,
       (∀ msg, fst (call lib (OpSave dst) self s)
                 ≠ Raise (MissingDependencyException msg))
       ∧ fs (world (snd (call lib (OpSave dst) self s))) = fs (world s)).
Proof.
  intros Hno. unfold call. split; [| split; [| split; [| split]]].
  - intros. by apply bound_pack_unavailable.
  - intros. by apply bound_load_unavailable.
  - unfold bound_get. destruct (is_ready s self); [| done].
    rewrite body_eq. unfold get. run.
    by destruct (heap (world s) !! self) as [[| |] |].
  - intros env. rewrite body_eq. unfold set_dependencies, add_pip_packages. run.
    by destruct (heap (world s) !! env) as [[| |] |].
  - intros Hnot dst. by rewrite (bound_save_not_ready lib self dst s Hnot).
Qed.

Lemma without_library_pack_and_load_raise_witness :
  catboost_importable (world (new_process false)) = false
  ∧ is_ready (new_process false) 1%positive = false
  ∧ call demo_lib (OpPack (PyStr "anything") PyNone) 1%positive (new_process false)
      = (Raise (MissingDependencyException MISSING_CATBOOST), new_process false)
  ∧ call demo_lib (OpLoad "/bundle") 1%positive (new_process false)
      = (Raise (MissingDependencyException MISSING_CATBOOST), new_process false)
  ∧ fs (world (snd (call demo_lib (OpSave "/bundle") 1%positive (new_process false))))
      = fs (world (new_process false)).
Proof.
  assert (Hno : catboost_importable (world (new_process false)) = false)
    by reflexivity.
  assert (Hnot : is_ready (new_process false) 1%positive = false)
    by (vm_compute; reflexivity).
  destruct (without_library_pack_and_load_raise demo_lib 1%positive _ Hno)
    as (Hpack & Hload & _ & _ & Hsave).
  split; [exact Hno |]. split; [exact Hnot |].
  split; [apply Hpack |]. split; [apply Hload |].
  apply (Hsave Hnot "/bundle").
Defined.

(** ** get and save on an instance *)







(** ** Histories of calls on instances *)














